(** * SessionManager: the re-entrant database session scope

    A shallow embedding of [core/db/session.py].  The class keeps one
    optional session and a recursion depth; [async_start] and
    [async_close] are the acquire and release operations of the scope,
    [__aenter__] and [__aexit__] wrap them for [async with].

    The collaborators (SQLAlchemy engine, session factory, session
    object, logger, DB-API connection) are not part of the class.  They
    are represented by the trace they leave in a [World]: which sessions
    were created and closed, what was logged, which listeners were
    registered.  The two collaborator calls that the class lets fail
    upward, [create_async_engine] and the call of the session factory,
    are fallible here; [Session.close], the logger and
    [dbapi_connection.execute] return normally. *)

From Stdlib Require Import ZArith List String Bool Lia.
Import ListNotations.
Local Open Scope string_scope.
Local Open Scope list_scope.
Local Open Scope Z_scope.

(** ** Values *)

(** An [AsyncSession] object, identified by its allocation number:
    two sessions are the same object iff the numbers agree. *)
Definition Session := nat.

(** A raised Python exception, named by its class. *)
Inductive exn : Type :=
| Exn (cls : string).

(** What a call does: return a value or raise. *)
Inductive Outcome (A : Type) : Type :=
| Return (a : A)
| Raise (e : exn).
Arguments Return {A} a.
Arguments Raise {A} e.

(** [core.config.schema.DBConfig], the two fields the class reads. *)
Record DBConfig : Type := mkDBConfig {
  url : string;
  debug_sql : bool
}.

(** The engine as [create_async_engine] was asked to build it. *)
Record Engine : Type := mkEngine {
  engine_url : string;
  engine_echo : bool;
  engine_echo_pool : option string
}.

(** The result of [async_sessionmaker(engine, expire_on_commit=...)]. *)
Record SessionMaker : Type := mkSessionMaker {
  maker_bind : Engine;
  maker_expire_on_commit : bool
}.

(** The attributes of a [SessionManager] instance. *)
Record SessionManager : Type := mkSessionManager {
  config : DBConfig;
  async_engine : Engine;
  AsyncSessionClass : SessionMaker;
  async_session : option Session;
  recursion_depth : Z
}.

(** ** Logging *)

Inductive Level : Type := DEBUG | WARNING.

(** The three messages of the module, with the value interpolated into
    each f-string. *)
Inductive Message : Type :=
| ConnectedTo (u : string)
| ReEntering (depth : Z)
| NeverOpened.

Record LogRecord : Type := mkLogRecord {
  level : Level;
  message : Message;
  stack_info : bool
}.

(** ** The world outside the instance *)

(** A registration made with [event.listen(target, name, fn)]; the
    listener is the bound method [_on_connect] of the instance with the
    recorded configuration. *)
Record Listener : Type := mkListener {
  listen_target : Engine;
  listen_event : string;
  listen_config : DBConfig
}.

Record World : Type := mkWorld {
  factory_calls : nat;          (* calls of the session factory so far *)
  created : list Session;       (* sessions the factory returned, newest first *)
  closed : list Session;        (* [close()] calls on sessions, newest first *)
  listeners : list Listener;    (* [event.listen] registrations *)
  log : list LogRecord          (* records sent to the logger, newest first *)
}.

(** An instance together with the world it runs in. *)
Record State : Type := mkState {
  self : SessionManager;
  env : World
}.

(** A DB-API connection, as the list of statements executed on it
    (newest first). *)
Definition Connection := list string.

Definition execute (stmt : string) (c : Connection) : Connection := stmt :: c.

(** ** Field updates *)

Definition set_async_session (v : option Session) (m : SessionManager) : SessionManager :=
  mkSessionManager (config m) (async_engine m) (AsyncSessionClass m) v (recursion_depth m).

Definition set_recursion_depth (d : Z) (m : SessionManager) : SessionManager :=
  mkSessionManager (config m) (async_engine m) (AsyncSessionClass m) (async_session m) d.

Definition emit (r : LogRecord) (w : World) : World :=
  mkWorld (factory_calls w) (created w) (closed w) (listeners w) (r :: log w).

Definition logger_debug (m : Message) (w : World) : World :=
  emit (mkLogRecord DEBUG m false) w.

Definition logger_warning (m : Message) (stack : bool) (w : World) : World :=
  emit (mkLogRecord WARNING m stack) w.

(** [await session.close()] *)
Definition Session_close (s : Session) (w : World) : World :=
  mkWorld (factory_calls w) (created w) (s :: closed w) (listeners w) (log w).

(** [event.listen(engine.sync_engine, name, self._on_connect)] *)
Definition event_listen (e : Engine) (name : string) (c : DBConfig) (w : World) : World :=
  mkWorld (factory_calls w) (created w) (closed w)
          (mkListener e name c :: listeners w) (log w).

Definition async_sessionmaker (e : Engine) (expire : bool) : SessionMaker :=
  mkSessionMaker e expire.

(** ** Sample backends and inputs *)

Definition accepts_all (_ : string) : option exn := None.


Definition never_raises (_ : nat) : option exn := None.

Definition first_call_raises (k : nat) : option exn :=
  match k with
  | O => Some (Exn "OperationalError")
  | S _ => None
  end.

Definition empty_world : World := mkWorld 0 [] [] [] [].

Definition sqlite_config : DBConfig := mkDBConfig "sqlite+aiosqlite:///test.db" false.

Definition postgres_config : DBConfig :=
  mkDBConfig "postgresql+asyncpg://localhost/test" false.


Definition sqlite_engine : Engine := mkEngine (url sqlite_config) false None.

(** The instance the constructor returns for [sqlite_config]. *)
Definition fresh_manager : SessionManager :=
  mkSessionManager sqlite_config sqlite_engine (mkSessionMaker sqlite_engine false) None 0.

Definition fresh_state : State :=
  mkState fresh_manager
          (mkWorld 0 [] [] [mkListener sqlite_engine "connect" sqlite_config] []).

(** A block that raises at once, and one that returns at once. *)
Definition raising_body (_ : Session) (st : State) : Outcome unit * State :=
  (Raise (Exn "ValueError"), st).

Definition passing_body (_ : Session) (st : State) : Outcome unit * State :=
  (Return tt, st).

(** ** The class *)

Section Backend.

(** SQLAlchemy's verdict on a connection URL: [Some e] when
    [create_async_engine] raises [e] for it. *)
Variable engine_rejects : string -> option exn.

(** The backend's verdict on the [k]-th call of the session factory
    (counted from 0): [Some e] when that call raises [e]. *)
Variable factory_raises : nat -> option exn.

Definition create_async_engine (u : string) (echo : bool) (echo_pool : option string)
  : Outcome Engine :=
  match engine_rejects u with
  | Some e => Raise e
  | None => Return (mkEngine u echo echo_pool)
  end.

(** [maker()]: one call of the session factory.  A call that returns
    yields an object that did not exist before. *)
Definition call_factory (_ : SessionMaker) (w : World) : Outcome Session * World :=
  let k := factory_calls w in
  match factory_raises k with
  | Some e =>
      (Raise e, mkWorld (S k) (created w) (closed w) (listeners w) (log w))
  | None =>
      (Return k, mkWorld (S k) (k :: created w) (closed w) (listeners w) (log w))
  end.

(** [SessionManager.__init__] *)
Definition __init__ (cfg : DBConfig) (w : World) : Outcome SessionManager * World :=
  match create_async_engine (url cfg) (debug_sql cfg)
                            (if debug_sql cfg then Some "debug" else None) with
  | Raise e => (Raise e, w)
  | Return eng =>
      let m := mkSessionManager cfg eng (async_sessionmaker eng false) None 0 in
      (Return m, event_listen eng "connect" cfg w)
  end.

(** [SessionManager._on_connect] *)
Definition _on_connect (m : SessionManager) (dbapi_connection : Connection) (w : World)
  : Connection * World :=
  let w1 := logger_debug (ConnectedTo (url (config m))) w in
  if prefix "sqlite" (url (config m))
  then (execute "pragma foreign_keys=on" dbapi_connection, w1)
  else (dbapi_connection, w1).

(** [SessionManager.async_start] *)
Definition async_start (st : State) : Outcome Session * State :=
  match async_session (self st) with
  | Some s =>
      let d := recursion_depth (self st) + 1 in
      (Return s,
       mkState (set_recursion_depth d (self st))
               (logger_warning (ReEntering d) true (env st)))
  | None =>
      match call_factory (AsyncSessionClass (self st)) (env st) with
      | (Raise e, w) => (Raise e, mkState (self st) w)
      | (Return s, w) => (Return s, mkState (set_async_session (Some s) (self st)) w)
      end
  end.

(** [SessionManager.async_close]; it returns [None] on every path, so
    only the state after the call is kept. *)
Definition async_close (st : State) : State :=
  match async_session (self st) with
  | None => mkState (self st) (logger_warning NeverOpened true (env st))
  | Some s =>
      if 0 <? recursion_depth (self st)
      then mkState (set_recursion_depth (recursion_depth (self st) - 1) (self st)) (env st)
      else mkState (set_async_session None (self st)) (Session_close s (env st))
  end.

(** [SessionManager.__aenter__] *)
Definition __aenter__ (st : State) : Outcome Session * State :=
  async_start st.

(** [SessionManager.__aexit__].  The three arguments describe the
    exception that left the block, if any; the method ignores them.
    It has no [return] statement, so it returns [None]: the boolean is
    the truth value of that result, which [async with] reads to decide
    whether the exception is swallowed. *)
Definition __aexit__ (exc : option exn) (st : State) : bool * State :=
  (false, async_close st).

(** [async with manager as session: body], by the protocol of the
    language: [__aenter__] is awaited; if it raises, the block and
    [__aexit__] are skipped; otherwise the block runs with the value
    bound, and [__aexit__] is awaited with the exception of the block
    or with none.  An exception of the block is raised again unless
    [__aexit__] returned a true value. *)
Definition async_with (body : Session -> State -> Outcome unit * State) (st : State)
  : Outcome unit * State :=
  match __aenter__ st with
  | (Raise e, st1) => (Raise e, st1)
  | (Return s, st1) =>
      match body s st1 with
      | (Return tt, st2) =>
          let '(_, st3) := __aexit__ None st2 in (Return tt, st3)
      | (Raise e, st2) =>
          let '(swallow, st3) := __aexit__ (Some e) st2 in
          if swallow then (Return tt, st3) else (Raise e, st3)
      end
  end.

(** ** Sequences of calls on one instance *)

Inductive call : Type := Acquire | Release.

(** One call made by a caller that goes on whatever the call did. *)
Definition step (st : State) (c : call) : State :=
  match c with
  | Acquire => snd (async_start st)
  | Release => async_close st
  end.

Definition run (cs : list call) (st : State) : State :=
  fold_left step cs st.

(** The instance holds a session. *)
Definition is_open (st : State) : bool :=
  match async_session (self st) with
  | Some _ => true
  | None => false
  end.

Definition is_acquire (c : call) : bool :=
  match c with Acquire => true | Release => false end.

Definition is_release (c : call) : bool :=
  match c with Acquire => false | Release => true end.

Definition acquires (cs : list call) : nat := List.length (filter is_acquire cs).
Definition releases (cs : list call) : nat := List.length (filter is_release cs).

(** The states an instance can be in: the one its constructor
    returns, and those that calls of [async_start] and [async_close]
    lead to. *)
Inductive reachable : State -> Prop :=
| reach_init cfg w m w' :
    __init__ cfg w = (Return m, w') -> reachable (mkState m w')
| reach_start st :
    reachable st -> reachable (snd (async_start st))
| reach_close st :
    reachable st -> reachable (async_close st).

(** The invariant of the data model. *)
Definition depth_invariant (st : State) : Prop :=
  0 <= recursion_depth (self st)
  /\ (0 < recursion_depth (self st) -> async_session (self st) <> None)
  /\ (async_session (self st) = None -> recursion_depth (self st) = 0).

(** The number of releases the instance still expects before it
    closes its session. *)
Definition holders (st : State) : Z :=
  if is_open st then recursion_depth (self st) + 1 else 0.

(** The depth is not negative, and zero without a session. *)
Definition depth_settled (st : State) : Prop :=
  if is_open st then 0 <= recursion_depth (self st)
  else recursion_depth (self st) = 0.

Definition weight (p : call -> bool) (c : call) : Z := if p c then 1 else 0.

(** The record [async_close] logs when there is no session. *)
Definition never_opened_warning : LogRecord := mkLogRecord WARNING NeverOpened true.

(** A block that opens a scope of its own on the same instance, as a
    callee that wants a session does. *)
Definition nested_block (_ : Session) (st : State) : Outcome unit * State :=
  async_with passing_body st.

(** What the caller of one call sees: an acquire that returned a
    session, an acquire that raised, or a release (which always
    returns). *)
Inductive event : Type := Acquired | AcquireRaised | Released.

Definition observe (st : State) (c : call) : event :=
  match c with
  | Acquire =>
      match fst (async_start st) with
      | Return _ => Acquired
      | Raise _ => AcquireRaised
      end
  | Release => Released
  end.

(** The events of a sequence of calls made from [st]. *)
Fixpoint trace (st : State) (cs : list call) : list event :=
  match cs with
  | [] => []
  | c :: rest => observe st c :: trace (step st c) rest
  end.

(** The caller's own count of what it still holds: an acquire that
    returned adds one, a release takes one away unless there is nothing
    to take, an acquire that raised counts for nothing. *)
Definition count_event (n : nat) (e : event) : nat :=
  match e with
  | Acquired => S n
  | AcquireRaised => n
  | Released => Nat.pred n
  end.

Definition pending (es : list event) : nat := fold_left count_event es 0%nat.

(** The session the instance holds, as a list of at most one. *)
Definition held (st : State) : list Session :=
  match async_session (self st) with
  | Some s => [s]
  | None => []
  end.

(** Calls that pair up like brackets, when [n] acquires made earlier
    still wait for their release. *)
Fixpoint nested (n : nat) (cs : list call) : bool :=
  match cs with
  | [] => Nat.eqb n 0
  | Acquire :: rest => nested (S n) rest
  | Release :: rest =>
      match n with
      | O => false
      | S m => nested m rest
      end
  end.

Definition well_nested (cs : list call) : bool := nested 0 cs.

(** How a state [st] relates to the state [st0] a well-nested run
    started from, when [n] acquires of the run are not yet released. *)
Definition tracks (st0 : State) (n : nat) (st : State) : Prop :=
  config (self st) = config (self st0)
  /\ async_engine (self st) = async_engine (self st0)
  /\ AsyncSessionClass (self st) = AsyncSessionClass (self st0)
  /\ depth_settled st
  /\ match async_session (self st0) with
     | Some s =>
         async_session (self st) = Some s
         /\ recursion_depth (self st) = recursion_depth (self st0) + Z.of_nat n
     | None => holders st <= Z.of_nat n
     end.

(** A world whose record of closed sessions is sound: no session was
    closed twice, and each closed session is one the factory has
    already handed out. *)
Definition world_ok (w : World) : Prop :=
  NoDup (closed w)
  /\ forall s, In s (closed w) -> (s < factory_calls w)%nat.

(** The held session, if any, is one the factory has handed out and
    that was not closed. *)
Definition session_live (st : State) : Prop :=
  forall s, async_session (self st) = Some s ->
            (s < factory_calls (env st))%nat /\ ~ In s (closed (env st)).

(** The warnings of [n] acquires made on top of depth [d], newest
    first. *)
Fixpoint reentry_warnings (d : Z) (n : nat) : list LogRecord :=
  match n with
  | O => []
  | S k =>
      mkLogRecord WARNING (ReEntering (d + Z.of_nat (S k))) true
      :: reentry_warnings d k
  end.

(** ** One call at a time *)

Lemma async_start_open st s :
  async_session (self st) = Some s ->
  async_start st =
    (Return s,
     mkState (set_recursion_depth (recursion_depth (self st) + 1) (self st))
             (logger_warning (ReEntering (recursion_depth (self st) + 1)) true (env st))).
Proof. intros H. unfold async_start. rewrite H. reflexivity. Qed.

Lemma async_start_closed_ok st :
  async_session (self st) = None ->
  factory_raises (factory_calls (env st)) = None ->
  async_start st =
    (Return (factory_calls (env st)),
     mkState (set_async_session (Some (factory_calls (env st))) (self st))
             (mkWorld (S (factory_calls (env st)))
                      (factory_calls (env st) :: created (env st))
                      (closed (env st)) (listeners (env st)) (log (env st)))).
Proof.
  intros H F. unfold async_start, call_factory. rewrite H, F. reflexivity.
Qed.

Lemma async_start_closed_raise st e :
  async_session (self st) = None ->
  factory_raises (factory_calls (env st)) = Some e ->
  async_start st =
    (Raise e,
     mkState (self st)
             (mkWorld (S (factory_calls (env st))) (created (env st))
                      (closed (env st)) (listeners (env st)) (log (env st)))).
Proof.
  intros H F. unfold async_start, call_factory. rewrite H, F. reflexivity.
Qed.

Lemma async_close_closed st :
  async_session (self st) = None ->
  async_close st = mkState (self st) (logger_warning NeverOpened true (env st)).
Proof. intros H. unfold async_close. rewrite H. reflexivity. Qed.

Lemma async_close_nested st s :
  async_session (self st) = Some s ->
  0 < recursion_depth (self st) ->
  async_close st =
    mkState (set_recursion_depth (recursion_depth (self st) - 1) (self st)) (env st).
Proof.
  intros H D. unfold async_close. rewrite H.
  apply Z.ltb_lt in D. rewrite D. reflexivity.
Qed.

Lemma async_close_outermost st s :
  async_session (self st) = Some s ->
  recursion_depth (self st) <= 0 ->
  async_close st =
    mkState (set_async_session None (self st)) (Session_close s (env st)).
Proof.
  intros H D. unfold async_close. rewrite H.
  apply Z.ltb_ge in D. rewrite D. reflexivity.
Qed.

(** The three ways a state can be, for case analysis. *)
Lemma state_cases st :
  async_session (self st) = None
  \/ (exists s, async_session (self st) = Some s /\ 0 < recursion_depth (self st))
  \/ (exists s, async_session (self st) = Some s /\ recursion_depth (self st) <= 0).
Proof.
  destruct (async_session (self st)) as [s|]; [right|left; reflexivity].
  destruct (Z_lt_le_dec 0 (recursion_depth (self st))); [left|right]; eauto.
Qed.

Lemma factory_cases k :
  factory_raises k = None \/ exists e, factory_raises k = Some e.
Proof. destruct (factory_raises k); eauto. Qed.

Lemma run_snoc cs c st : run (cs ++ [c]) st = step (run cs st) c.
Proof. unfold run. rewrite fold_left_app. reflexivity. Qed.

Lemma run_cons c cs st : run (c :: cs) st = run cs (step st c).
Proof. reflexivity. Qed.

Lemma is_open_true st :
  is_open st = true <-> exists s, async_session (self st) = Some s.
Proof.
  unfold is_open. destruct (async_session (self st)); split; intros H; eauto.
  - discriminate.
  - destruct H; discriminate.
Qed.

Lemma is_open_false st :
  is_open st = false <-> async_session (self st) = None.
Proof.
  unfold is_open. destruct (async_session (self st)); split; intros H;
    congruence.
Qed.

(** ** The depth invariant *)

Lemma init_depth_invariant cfg w m w' :
  __init__ cfg w = (Return m, w') -> depth_invariant (mkState m w').
Proof.
  unfold __init__. destruct (create_async_engine _ _ _); intros H; inversion H.
  unfold depth_invariant; simpl. repeat split; intros; lia.
Qed.

Lemma async_start_depth_invariant st :
  depth_invariant st -> depth_invariant (snd (async_start st)).
Proof.
  intros (Hnn & Hpos & Hnone).
  destruct (async_session (self st)) as [s|] eqn:E.
  - rewrite (async_start_open _ _ E). unfold depth_invariant; simpl.
    rewrite E. repeat split; intros; try lia; congruence.
  - destruct (factory_cases (factory_calls (env st))) as [F|[e F]].
    + rewrite (async_start_closed_ok _ E F). unfold depth_invariant; simpl.
      repeat split; intros; try lia; congruence.
    + rewrite (async_start_closed_raise _ _ E F). unfold depth_invariant; simpl.
      specialize (Hnone eq_refl). rewrite E. repeat split; intros; try lia; auto.
Qed.

Lemma async_close_depth_invariant st :
  depth_invariant st -> depth_invariant (async_close st).
Proof.
  intros (Hnn & Hpos & Hnone).
  destruct (state_cases st) as [E|[(s & E & D)|(s & E & D)]].
  - rewrite (async_close_closed _ E). unfold depth_invariant; simpl.
    specialize (Hnone E). rewrite E. repeat split; intros; try lia; auto.
  - rewrite (async_close_nested _ _ E D). unfold depth_invariant; simpl.
    rewrite E. repeat split; intros; try lia; congruence.
  - rewrite (async_close_outermost _ _ E D). unfold depth_invariant; simpl.
    repeat split; intros; try lia.
Qed.

(** C2.  Every state that an instance can reach from its constructor
    by calls of [async_start] and [async_close] has a recursion depth
    that is not negative; a positive depth comes with a session, and
    without a session the depth is zero. *)
Theorem reachable_depth_invariant st :
  reachable st -> depth_invariant st.
Proof.
  induction 1 as [cfg w m w' Hinit | st _ IH | st _ IH].
  - exact (init_depth_invariant _ _ _ _ Hinit).
  - exact (async_start_depth_invariant _ IH).
  - exact (async_close_depth_invariant _ IH).
Qed.

(** ** Balance of calls *)

Lemma acquires_snoc cs c :
  Z.of_nat (acquires (cs ++ [c])) = Z.of_nat (acquires cs) + weight is_acquire c.
Proof.
  unfold acquires, weight. rewrite filter_app, length_app. simpl.
  destruct (is_acquire c); simpl; lia.
Qed.

Lemma releases_snoc cs c :
  Z.of_nat (releases (cs ++ [c])) = Z.of_nat (releases cs) + weight is_release c.
Proof.
  unfold releases, weight. rewrite filter_app, length_app. simpl.
  destruct (is_release c); simpl; lia.
Qed.

Lemma step_balance st c :
  depth_settled st ->
  depth_settled (step st c)
  /\ (is_open (step st c) = true ->
      holders (step st c) = holders st + weight is_acquire c - weight is_release c).
Proof.
  unfold depth_settled, holders, is_open, weight. intros Hd.
  destruct c; simpl.
  - destruct (async_session (self st)) as [s|] eqn:E.
    + rewrite (async_start_open _ _ E). simpl. rewrite E. split; intros; lia.
    + destruct (factory_cases (factory_calls (env st))) as [F|[e F]].
      * rewrite (async_start_closed_ok _ E F). simpl. split; intros; lia.
      * rewrite (async_start_closed_raise _ _ E F). simpl. rewrite E.
        split; [assumption | discriminate].
  - destruct (state_cases st) as [E|[(s & E & D)|(s & E & D)]].
    + rewrite (async_close_closed _ E). simpl. rewrite E in *.
      split; [assumption | discriminate].
    + rewrite (async_close_nested _ _ E D). simpl. rewrite E in *.
      split; intros; lia.
    + rewrite (async_close_outermost _ _ E D). simpl. rewrite E in *.
      split; [lia | discriminate].
Qed.

(** A run that starts closed with depth zero splits at the last
    moment the instance was closed; after that moment the acquires
    exceed the releases by the number of holders. *)
Lemma run_balance st0 :
  async_session (self st0) = None ->
  recursion_depth (self st0) = 0 ->
  forall cs, exists pre post,
    cs = pre ++ post
    /\ is_open (run pre st0) = false
    /\ (forall k, (0 < k <= List.length post)%nat ->
                  is_open (run (pre ++ firstn k post) st0) = true)
    /\ depth_settled (run cs st0)
    /\ Z.of_nat (acquires post) = Z.of_nat (releases post) + holders (run cs st0).
Proof.
  intros Hs Hd cs. induction cs as [|c cs IH] using rev_ind.
  - exists [], []. simpl. unfold depth_settled, holders, is_open. rewrite Hs.
    repeat split; try assumption; try reflexivity. intros k Hk; simpl in Hk; lia.
  - destruct IH as (pre & post & Hcs & Hpre & Hopen & Hset & Hbal).
    destruct (step_balance _ c Hset) as [Hset' Hhold].
    destruct (is_open (run (cs ++ [c]) st0)) eqn:O.
    + exists pre, (post ++ [c]). rewrite run_snoc in O. specialize (Hhold O).
      repeat split.
      * rewrite app_assoc, <- Hcs. reflexivity.
      * assumption.
      * intros k Hk. rewrite length_app in Hk. simpl in Hk.
        destruct (Nat.eq_dec k (List.length post + 1)) as [->|Hne].
        -- rewrite firstn_all2 by (rewrite length_app; simpl; lia).
           rewrite app_assoc, <- Hcs, run_snoc. assumption.
        -- rewrite firstn_app.
           replace (k - List.length post)%nat with 0%nat by lia.
           simpl. rewrite app_nil_r. apply Hopen. lia.
      * rewrite run_snoc. assumption.
      * rewrite run_snoc, acquires_snoc, releases_snoc, Hhold. lia.
    + exists (cs ++ [c]), []. rewrite app_nil_r. repeat split.
      * assumption.
      * intros k Hk; simpl in Hk; lia.
      * rewrite run_snoc. assumption.
      * unfold holders. rewrite O. reflexivity.
Qed.

Lemma init_starts_closed cfg w m w' :
  __init__ cfg w = (Return m, w') ->
  async_session m = None /\ recursion_depth m = 0 /\ config m = cfg.
Proof.
  unfold __init__. destruct (create_async_engine _ _ _); intros H; inversion H.
  simpl. auto.
Qed.

Lemma trace_snoc cs : forall st c,
  trace st (cs ++ [c]) = trace st cs ++ [observe (run cs st) c].
Proof.
  induction cs as [|c0 cs IH]; intros st c.
  - reflexivity.
  - simpl. rewrite IH. reflexivity.
Qed.

Lemma pending_snoc es e : pending (es ++ [e]) = count_event (pending es) e.
Proof. unfold pending. rewrite fold_left_app. reflexivity. Qed.

(** The caller's count and the instance agree after every call. *)
Lemma step_pending st c n :
  depth_settled st ->
  Z.of_nat n = holders st ->
  depth_settled (step st c)
  /\ Z.of_nat (count_event n (observe st c)) = holders (step st c).
Proof.
  unfold depth_settled, holders, is_open, observe. intros Hd Hn.
  destruct c; simpl.
  - destruct (async_session (self st)) as [s|] eqn:E.
    + rewrite (async_start_open _ _ E). simpl. rewrite E. split; lia.
    + destruct (factory_cases (factory_calls (env st))) as [F|[e F]].
      * rewrite (async_start_closed_ok _ E F). simpl. split; lia.
      * rewrite (async_start_closed_raise _ _ E F). simpl. rewrite E.
        split; [assumption | lia].
  - destruct (state_cases st) as [E|[(s & E & D)|(s & E & D)]].
    + rewrite (async_close_closed _ E). simpl. rewrite E in *.
      split; [assumption | lia].
    + rewrite (async_close_nested _ _ E D). simpl. rewrite E in *.
      split; lia.
    + rewrite (async_close_outermost _ _ E D). simpl. rewrite E in *.
      split; lia.
Qed.

Lemma run_pending st0 :
  async_session (self st0) = None ->
  recursion_depth (self st0) = 0 ->
  forall cs,
    depth_settled (run cs st0)
    /\ Z.of_nat (pending (trace st0 cs)) = holders (run cs st0).
Proof.
  intros Hs Hd cs. induction cs as [|c cs IH] using rev_ind.
  - simpl. unfold depth_settled, holders, is_open. rewrite Hs. auto.
  - destruct IH as [Hset Hp].
    rewrite trace_snoc, pending_snoc, run_snoc.
    exact (step_pending _ c _ Hset Hp).
Qed.

Lemma holders_positive st :
  depth_settled st -> (is_open st = true <-> 0 < holders st).
Proof.
  unfold depth_settled, holders. destruct (is_open st); intros H; split;
    intros H'; try reflexivity; try lia; discriminate.
Qed.

(** C1.  Take any sequence of [async_start] and [async_close] calls
    made one after the other on a freshly constructed instance, and let
    the caller count as it goes: one up for an acquire that returned,
    one down for a release unless the count is zero, nothing for an
    acquire that raised.  The instance holds a session at the end iff
    that count is positive.  The count is the number of acquires less
    the number of releases since the instance last held no session:
    cut the sequence at the last moment the count was zero; then no
    session was held at the cut, a session is held and the count is
    positive after every later call, and the count at the end is the
    acquires after the cut less the releases after the cut.  So a
    session is held at the end iff the acquires since the instance last
    held none exceed the releases since then. *)
Theorem open_iff_acquires_exceed_releases cfg w m w' cs :
  __init__ cfg w = (Return m, w') ->
  let st0 := mkState m w' in
  (is_open (run cs st0) = true <-> (0 < pending (trace st0 cs))%nat)
  /\ exists pre post,
       cs = pre ++ post
       /\ is_open (run pre st0) = false
       /\ pending (trace st0 pre) = 0%nat
       /\ (forall k, (0 < k <= List.length post)%nat ->
             is_open (run (pre ++ firstn k post) st0) = true
             /\ (0 < pending (trace st0 (pre ++ firstn k post)))%nat)
       /\ (pending (trace st0 cs) + releases post = acquires post)%nat
       /\ (is_open (run cs st0) = true
           <-> (releases post < acquires post)%nat).
Proof.
  intros Hinit st0.
  destruct (init_starts_closed _ _ _ _ Hinit) as (Hs & Hd & _).
  assert (Hcount : forall xs, is_open (run xs st0) = true
                              <-> (0 < pending (trace st0 xs))%nat).
  { intros xs. destruct (run_pending st0 Hs Hd xs) as [Hset Hp].
    rewrite (holders_positive _ Hset). lia. }
  split; [apply Hcount|].
  destruct (run_balance st0 Hs Hd cs)
    as (pre & post & Hcs & Hpre & Hopen & Hset & Hbal).
  destruct (run_pending st0 Hs Hd cs) as [_ Hp].
  exists pre, post.
  split; [exact Hcs|]. split; [exact Hpre|]. split.
  { destruct (pending (trace st0 pre)) eqn:P; [reflexivity|].
    assert (O : is_open (run pre st0) = true) by (apply Hcount; lia).
    congruence. }
  split.
  { intros k Hk. specialize (Hopen k Hk). split; [exact Hopen|].
    apply Hcount. exact Hopen. }
  split; [lia|].
  rewrite Hcount. lia.
Qed.

(** ** Runs of one kind of call *)

Lemma run_app cs1 cs2 st : run (cs1 ++ cs2) st = run cs2 (run cs1 st).
Proof. unfold run. apply fold_left_app. Qed.

Lemma repeat_snoc (c : call) n : repeat c (S n) = repeat c n ++ [c].
Proof. simpl. apply repeat_cons. Qed.

Lemma run_releases_closed n st :
  async_session (self st) = None ->
  run (repeat Release n) st =
    mkState (self st)
            (mkWorld (factory_calls (env st)) (created (env st)) (closed (env st))
                     (listeners (env st))
                     (repeat never_opened_warning n ++ log (env st))).
Proof.
  intros E. induction n as [|n IH].
  - destruct st as [m [fc cr cl li lg]]. reflexivity.
  - rewrite repeat_snoc, run_snoc, IH. simpl.
    rewrite async_close_closed by exact E. reflexivity.
Qed.

Lemma run_acquires_open n : forall st s,
  async_session (self st) = Some s ->
  let st' := run (repeat Acquire n) st in
  async_session (self st') = Some s
  /\ recursion_depth (self st') = recursion_depth (self st) + Z.of_nat n
  /\ factory_calls (env st') = factory_calls (env st)
  /\ created (env st') = created (env st)
  /\ closed (env st') = closed (env st).
Proof.
  induction n as [|n IH]; intros st s E; cbv zeta.
  - simpl. repeat split; try assumption. lia.
  - rewrite repeat_snoc, run_snoc.
    destruct (IH st s E) as (E' & D' & F' & C' & L'). simpl.
    rewrite (async_start_open _ _ E'). simpl.
    repeat split; try assumption. lia.
Qed.

Lemma run_releases_nested k : forall st s,
  async_session (self st) = Some s ->
  Z.of_nat k <= recursion_depth (self st) ->
  let st' := run (repeat Release k) st in
  async_session (self st') = Some s
  /\ recursion_depth (self st') = recursion_depth (self st) - Z.of_nat k
  /\ factory_calls (env st') = factory_calls (env st)
  /\ created (env st') = created (env st)
  /\ closed (env st') = closed (env st).
Proof.
  induction k as [|k IH]; intros st s E D; cbv zeta.
  - simpl. repeat split; try assumption. lia.
  - rewrite repeat_snoc, run_snoc.
    assert (Hroom : Z.of_nat k <= recursion_depth (self st)) by lia.
    destruct (IH st s E Hroom) as (E' & D' & F' & C' & L'). simpl.
    rewrite (async_close_nested _ _ E') by lia. simpl.
    repeat split; try assumption. lia.
Qed.

(** A call that leaves the session held leaves it the same session,
    and neither creates nor closes one. *)
Lemma step_open_keeps st c s :
  async_session (self st) = Some s ->
  is_open (step st c) = true ->
  async_session (self (step st c)) = Some s
  /\ factory_calls (env (step st c)) = factory_calls (env st)
  /\ created (env (step st c)) = created (env st)
  /\ closed (env (step st c)) = closed (env st).
Proof.
  intros E O. destruct c; simpl in *.
  - rewrite (async_start_open _ _ E). simpl. auto.
  - destruct (Z_lt_le_dec 0 (recursion_depth (self st))) as [D|D].
    + rewrite (async_close_nested _ _ E D). simpl. auto.
    + rewrite (async_close_outermost _ _ E D) in O. discriminate.
Qed.

Lemma run_stays_open cs : forall st s,
  async_session (self st) = Some s ->
  (forall k, is_open (run (firstn k cs) st) = true) ->
  async_session (self (run cs st)) = Some s
  /\ factory_calls (env (run cs st)) = factory_calls (env st)
  /\ created (env (run cs st)) = created (env st)
  /\ closed (env (run cs st)) = closed (env st).
Proof.
  induction cs as [|c cs IH]; intros st s E H.
  - simpl. auto.
  - rewrite run_cons.
    destruct (step_open_keeps st c s E (H 1%nat)) as (E' & F' & C' & L').
    destruct (IH (step st c) s E' (fun k => H (S k))) as (E2 & F2 & C2 & L2).
    repeat split; congruence.
Qed.

(** ** Acquire *)

(** C3.  [async_start] on an instance without a session, when the
    factory call returns: the factory is called once, the session it
    made is stored and returned, and the depth stays.  After any
    further calls that never let go of the session, another
    [async_start] returns that same session, adds one to the depth and
    does not call the factory. *)
Theorem acquire_creates_once_then_reuses st :
  async_session (self st) = None ->
  factory_raises (factory_calls (env st)) = None ->
  exists s st1,
    async_start st = (Return s, st1)
    /\ factory_calls (env st1) = S (factory_calls (env st))
    /\ created (env st1) = s :: created (env st)
    /\ async_session (self st1) = Some s
    /\ recursion_depth (self st1) = recursion_depth (self st)
    /\ forall cs,
         (forall k, is_open (run (firstn k cs) st1) = true) ->
         exists st2,
           async_start (run cs st1) = (Return s, st2)
           /\ async_session (self st2) = Some s
           /\ recursion_depth (self st2) = recursion_depth (self (run cs st1)) + 1
           /\ factory_calls (env st2) = factory_calls (env st1)
           /\ created (env st2) = created (env st1).
Proof.
  intros E F. rewrite (async_start_closed_ok _ E F).
  eexists. eexists. split; [reflexivity|]. simpl.
  repeat split. intros cs Hheld.
  match goal with |- context [run cs ?st1] => set (s1 := st1) in * end.
  destruct (run_stays_open cs s1 (factory_calls (env st)) eq_refl Hheld)
    as (E' & F' & C' & _).
  rewrite (async_start_open _ _ E'). eexists. split; [reflexivity|]. simpl.
  repeat split; assumption.
Qed.

(** C8.  [async_start] on an instance without a session, when the
    factory call raises [e]: the call raises the same [e]; the
    attributes of the instance are what they were, so no session is
    stored and the depth is not touched; no session was created or
    closed and nothing was logged. *)
Theorem failed_acquire_leaves_scope_closed st e :
  async_session (self st) = None ->
  factory_raises (factory_calls (env st)) = Some e ->
  exists st',
    async_start st = (Raise e, st')
    /\ self st' = self st
    /\ async_session (self st') = None
    /\ recursion_depth (self st') = recursion_depth (self st)
    /\ created (env st') = created (env st)
    /\ closed (env st') = closed (env st)
    /\ log (env st') = log (env st).
Proof.
  intros E F. rewrite (async_start_closed_raise _ _ E F).
  eexists. split; [reflexivity|]. simpl. repeat split. assumption.
Qed.

(** ** Release *)

(** C4.  [N] acquires on an instance that starts without a session,
    then releases: after fewer than [N] releases the one session is
    still held and was not closed, the depth having gone down by one
    per release; after [N] releases, and after any number beyond, the
    instance holds no session and the session was closed once. *)
Theorem nth_release_closes N st :
  (1 <= N)%nat ->
  async_session (self st) = None ->
  recursion_depth (self st) = 0 ->
  factory_raises (factory_calls (env st)) = None ->
  let s := factory_calls (env st) in
  let held := run (repeat Acquire N) st in
  (forall k, (k < N)%nat ->
     let stk := run (repeat Release k) held in
     async_session (self stk) = Some s
     /\ recursion_depth (self stk) = Z.of_nat N - 1 - Z.of_nat k
     /\ created (env stk) = s :: created (env st)
     /\ closed (env stk) = closed (env st))
  /\ (forall k, (N <= k)%nat ->
     let stk := run (repeat Release k) held in
     async_session (self stk) = None
     /\ recursion_depth (self stk) = 0
     /\ created (env stk) = s :: created (env st)
     /\ closed (env stk) = s :: closed (env st)).
Proof.
  intros HN E D F s held.
  destruct N as [|n]; [lia|].
  assert (Hheld : async_session (self held) = Some s
                  /\ recursion_depth (self held) = Z.of_nat n
                  /\ created (env held) = s :: created (env st)
                  /\ closed (env held) = closed (env st)).
  { subst held.
    change (run (repeat Acquire (S n)) st) with (run (repeat Acquire n) (step st Acquire)).
    unfold step. rewrite (async_start_closed_ok _ E F). simpl snd.
    match goal with |- context [run _ ?st1] => set (s1 := st1) end.
    destruct (run_acquires_open n s1 s eq_refl) as (E' & D' & _ & C' & L').
    repeat split; try assumption.
    rewrite D'. subst s1. simpl. lia. }
  destruct Hheld as (Eh & Dh & Ch & Lh). clearbody held s.
  assert (Hbelow : forall k, (k < S n)%nat ->
     let stk := run (repeat Release k) held in
     async_session (self stk) = Some s
     /\ recursion_depth (self stk) = Z.of_nat (S n) - 1 - Z.of_nat k
     /\ created (env stk) = s :: created (env st)
     /\ closed (env stk) = closed (env st)).
  { intros k Hk.
    assert (Hroom : Z.of_nat k <= recursion_depth (self held)) by lia.
    destruct (run_releases_nested k held s Eh Hroom) as (E' & D' & _ & C' & L').
    cbv zeta. repeat split.
    - exact E'.
    - rewrite D', Dh. lia.
    - rewrite C'. exact Ch.
    - rewrite L'. exact Lh. }
  split; [exact Hbelow|].
  intros k Hk. cbv zeta.
  replace k with (n + (1 + (k - S n)))%nat by lia.
  rewrite repeat_app, run_app. rewrite repeat_app, run_app.
  destruct (Hbelow n (Nat.lt_succ_diag_r n)) as (E' & D' & C' & L').
  set (last := run (repeat Release n) held) in *.
  change (run (repeat Release 1) last) with (async_close last).
  assert (Hlast : async_close last =
                  mkState (set_async_session None (self last))
                          (Session_close s (env last)))
    by (apply async_close_outermost; [exact E' | lia]).
  rewrite run_releases_closed by (rewrite Hlast; reflexivity).
  rewrite Hlast. simpl. repeat split.
  - lia.
  - exact C'.
  - rewrite L'. reflexivity.
Qed.

(** C5.  Any number of [async_close] calls on an instance without a
    session leave the instance as it was, create and close nothing,
    and add one warning each to the log; the call has no way to
    raise. *)
Theorem release_when_closed_only_warns n st :
  async_session (self st) = None ->
  run (repeat Release n) st =
    mkState (self st)
            (mkWorld (factory_calls (env st)) (created (env st)) (closed (env st))
                     (listeners (env st))
                     (repeat never_opened_warning n ++ log (env st))).
Proof. exact (run_releases_closed n st). Qed.

(** ** What the calls leave alone *)

Lemma async_start_keeps_setup st :
  config (self (snd (async_start st))) = config (self st)
  /\ async_engine (self (snd (async_start st))) = async_engine (self st)
  /\ AsyncSessionClass (self (snd (async_start st))) = AsyncSessionClass (self st).
Proof.
  destruct (async_session (self st)) as [s|] eqn:E.
  - rewrite (async_start_open _ _ E). simpl. auto.
  - destruct (factory_cases (factory_calls (env st))) as [F|[e F]].
    + rewrite (async_start_closed_ok _ E F). simpl. auto.
    + rewrite (async_start_closed_raise _ _ E F). simpl. auto.
Qed.

Lemma async_close_keeps_setup st :
  config (self (async_close st)) = config (self st)
  /\ async_engine (self (async_close st)) = async_engine (self st)
  /\ AsyncSessionClass (self (async_close st)) = AsyncSessionClass (self st).
Proof.
  destruct (state_cases st) as [E|[(s & E & D)|(s & E & D)]].
  - rewrite (async_close_closed _ E). simpl. auto.
  - rewrite (async_close_nested _ _ E D). simpl. auto.
  - rewrite (async_close_outermost _ _ E D). simpl. auto.
Qed.

(** C10.  [async_start] closes no session, keeps a session that is
    held and does not lower the depth; [async_close] creates no
    session, does not call the factory and does not raise the depth;
    both keep the configuration, the engine and the session factory
    of the instance. *)
Theorem acquire_release_frame st :
  let st1 := snd (async_start st) in
  let st2 := async_close st in
  closed (env st1) = closed (env st)
  /\ (async_session (self st) = None
      \/ async_session (self st1) = async_session (self st))
  /\ recursion_depth (self st) <= recursion_depth (self st1)
  /\ created (env st2) = created (env st)
  /\ factory_calls (env st2) = factory_calls (env st)
  /\ recursion_depth (self st2) <= recursion_depth (self st)
  /\ (config (self st1) = config (self st)
      /\ async_engine (self st1) = async_engine (self st)
      /\ AsyncSessionClass (self st1) = AsyncSessionClass (self st))
  /\ (config (self st2) = config (self st)
      /\ async_engine (self st2) = async_engine (self st)
      /\ AsyncSessionClass (self st2) = AsyncSessionClass (self st)).
Proof.
  cbv zeta.
  assert (Hstart : closed (env (snd (async_start st))) = closed (env st)
                   /\ (async_session (self st) = None
                       \/ async_session (self (snd (async_start st)))
                          = async_session (self st))
                   /\ recursion_depth (self st)
                      <= recursion_depth (self (snd (async_start st)))).
  { destruct (async_session (self st)) as [s|] eqn:E.
    - rewrite (async_start_open _ _ E). simpl. rewrite E.
      repeat split; [right; reflexivity | lia].
    - destruct (factory_cases (factory_calls (env st))) as [F|[e F]].
      + rewrite (async_start_closed_ok _ E F). simpl.
        repeat split; [left; reflexivity | lia].
      + rewrite (async_start_closed_raise _ _ E F). simpl.
        repeat split; [left; reflexivity | lia]. }
  assert (Hclose : created (env (async_close st)) = created (env st)
                   /\ factory_calls (env (async_close st)) = factory_calls (env st)
                   /\ recursion_depth (self (async_close st))
                      <= recursion_depth (self st)).
  { destruct (state_cases st) as [E|[(s & E & D)|(s & E & D)]].
    - rewrite (async_close_closed _ E). simpl. repeat split; lia.
    - rewrite (async_close_nested _ _ E D). simpl. repeat split; lia.
    - rewrite (async_close_outermost _ _ E D). simpl. repeat split; lia. }
  destruct Hstart as (H1 & H2 & H3). destruct Hclose as (H4 & H5 & H6).
  pose proof (async_start_keeps_setup st) as H7.
  pose proof (async_close_keeps_setup st) as H8.
  repeat split; try assumption; try apply H7; try apply H8.
Qed.

(** ** Construction *)



(** The constructor, when it returns, has registered the hook for the
    engine's connect event. *)
Lemma init_registers_connect_hook cfg w m w' :
  __init__ cfg w = (Return m, w') ->
  listeners w' = mkListener (async_engine m) "connect" (config m) :: listeners w.
Proof.
  unfold __init__. destruct (create_async_engine _ _ _); intros H; inversion H.
  reflexivity.
Qed.

(** ** The connect hook *)

Lemma prefix_true_iff p : forall s,
  prefix p s = true <-> exists rest, s = (p ++ rest)%string.
Proof.
  induction p as [|a p IH]; intros s.
  - split; [intros _; exists s; reflexivity | intros _; destruct s; reflexivity].
  - destruct s as [|b s]; simpl.
    + split; [discriminate | intros [rest H]; discriminate].
    + destruct (Ascii.ascii_dec a b) as [->|N].
      * rewrite IH. split; intros [rest H]; exists rest.
        -- rewrite H. reflexivity.
        -- injection H. auto.
      * split; [discriminate | intros [rest H]; injection H; congruence].
Qed.

Lemma cons_neq_self {A} (x : A) l : x :: l <> l.
Proof.
  intros H. apply (f_equal (@List.length A)) in H. simpl in H. lia.
Qed.

(** C6.  The connect hook executes [pragma foreign_keys=on] on the
    new connection iff the configured URL begins with [sqlite]; for
    any other URL it executes nothing on the connection. *)
Theorem on_connect_pragma_iff_sqlite m conn w :
  let conn' := fst (_on_connect m conn w) in
  ((exists rest, url (config m) = ("sqlite" ++ rest)%string)
   <-> conn' = execute "pragma foreign_keys=on" conn)
  /\ ((~ exists rest, url (config m) = ("sqlite" ++ rest)%string)
      <-> conn' = conn).
Proof.
  cbv zeta. unfold _on_connect, execute.
  destruct (prefix "sqlite" (url (config m))) eqn:P; simpl.
  - apply prefix_true_iff in P. split; split; intros H.
    + reflexivity.
    + exact P.
    + contradiction.
    + exfalso. exact (cons_neq_self _ _ H).
  - assert (N : ~ exists rest, url (config m) = ("sqlite" ++ rest)%string).
    { intros H. apply prefix_true_iff in H. congruence. }
    split; split; intros H.
    + contradiction.
    + exfalso. exact (cons_neq_self _ _ (eq_sym H)).
    + reflexivity.
    + exact N.
Qed.

(** ** Scoped use *)

(** C9.  In [async with], entering yields what [async_start] yields;
    [__aexit__] is one [async_close] and does not swallow; and
    whichever way the block ends, by returning or by raising, the
    statement ends the same way with exactly one [async_close] applied
    to the state the block left. *)
Theorem async_with_releases_once body st s st1 r st2 :
  async_start st = (Return s, st1) ->
  body s st1 = (r, st2) ->
  __aenter__ st = (Return s, st1)
  /\ (forall exc, __aexit__ exc st2 = (false, async_close st2))
  /\ async_with body st = (r, async_close st2).
Proof.
  intros Hstart Hbody. repeat split.
  - exact Hstart.
  - unfold async_with, __aenter__, __aexit__. rewrite Hstart, Hbody.
    destruct r as [[]|e]; reflexivity.
Qed.

(** ** Whole runs *)

Lemma manager_eq m1 m2 :
  config m1 = config m2 ->
  async_engine m1 = async_engine m2 ->
  AsyncSessionClass m1 = AsyncSessionClass m2 ->
  async_session m1 = async_session m2 ->
  recursion_depth m1 = recursion_depth m2 ->
  m1 = m2.
Proof.
  destruct m1, m2. simpl. intros; subst. reflexivity.
Qed.

Lemma step_keeps_setup st c :
  config (self (step st c)) = config (self st)
  /\ async_engine (self (step st c)) = async_engine (self st)
  /\ AsyncSessionClass (self (step st c)) = AsyncSessionClass (self st).
Proof.
  destruct c; [apply async_start_keeps_setup | apply async_close_keeps_setup].
Qed.

(** What one call does to the world: the listeners stay, the factory
    count does not go down, and the three histories only grow at the
    front, each by at most one entry. *)
Lemma step_world st c :
  listeners (env (step st c)) = listeners (env st)
  /\ (factory_calls (env st) <= factory_calls (env (step st c)))%nat
  /\ (exists l, created (env (step st c)) = l ++ created (env st)
                /\ (List.length l <= 1)%nat)
  /\ (exists l, closed (env (step st c)) = l ++ closed (env st)
                /\ (List.length l <= 1)%nat)
  /\ (exists l, log (env (step st c)) = l ++ log (env st)
                /\ (List.length l <= 1)%nat).
Proof.
  destruct c; simpl.
  - destruct (async_session (self st)) as [s|] eqn:E.
    + rewrite (async_start_open _ _ E). simpl.
      repeat split; try lia; [exists [] | exists [] | eexists [_]];
        simpl; split; try reflexivity; lia.
    + destruct (factory_cases (factory_calls (env st))) as [F|[e F]].
      * rewrite (async_start_closed_ok _ E F). simpl.
        repeat split; try lia; [eexists [_] | exists [] | exists []];
          simpl; split; try reflexivity; lia.
      * rewrite (async_start_closed_raise _ _ E F). simpl.
        repeat split; try lia; exists []; simpl; split; try reflexivity; lia.
  - destruct (state_cases st) as [E|[(s & E & D)|(s & E & D)]].
    + rewrite (async_close_closed _ E). simpl.
      repeat split; try lia; [exists [] | exists [] | eexists [_]];
        simpl; split; try reflexivity; lia.
    + rewrite (async_close_nested _ _ E D). simpl.
      repeat split; try lia; exists []; simpl; split; try reflexivity; lia.
    + rewrite (async_close_outermost _ _ E D). simpl.
      repeat split; try lia; [exists [] | eexists [_] | exists []];
        simpl; split; try reflexivity; lia.
Qed.

(** X11.  Whatever calls are made and whatever the backend does, the
    instance keeps its configuration, engine and session factory, no
    listener is added or removed, the factory count does not go down,
    and the records of created sessions, closed sessions and log
    entries are only extended, by at most one entry per call. *)
Theorem run_frame cs : forall st,
  config (self (run cs st)) = config (self st)
  /\ async_engine (self (run cs st)) = async_engine (self st)
  /\ AsyncSessionClass (self (run cs st)) = AsyncSessionClass (self st)
  /\ listeners (env (run cs st)) = listeners (env st)
  /\ (factory_calls (env st) <= factory_calls (env (run cs st)))%nat
  /\ (exists l, created (env (run cs st)) = l ++ created (env st)
                /\ (List.length l <= List.length cs)%nat)
  /\ (exists l, closed (env (run cs st)) = l ++ closed (env st)
                /\ (List.length l <= List.length cs)%nat)
  /\ (exists l, log (env (run cs st)) = l ++ log (env st)
                /\ (List.length l <= List.length cs)%nat).
Proof.
  induction cs as [|c cs IH]; intros st.
  - simpl. repeat split; try lia; exists []; simpl; split; try reflexivity; lia.
  - rewrite run_cons.
    destruct (IH (step st c))
      as (H1 & H2 & H3 & H4 & H5 & (l6 & H6 & N6) & (l7 & H7 & N7) & (l8 & H8 & N8)).
    destruct (step_keeps_setup st c) as (S1 & S2 & S3).
    destruct (step_world st c)
      as (W4 & W5 & (k6 & W6 & M6) & (k7 & W7 & M7) & (k8 & W8 & M8)).
    repeat split; try congruence; try lia.
    + exists (l6 ++ k6). rewrite H6, W6, app_assoc, length_app. simpl. split; [reflexivity|lia].
    + exists (l7 ++ k7). rewrite H7, W7, app_assoc, length_app. simpl. split; [reflexivity|lia].
    + exists (l8 ++ k8). rewrite H8, W8, app_assoc, length_app. simpl. split; [reflexivity|lia].
Qed.

(** ** Sessions created and closed *)

Lemma step_accounting st c done base_created base_closed :
  closed (env st) = done ++ base_closed ->
  created (env st) = held st ++ done ++ base_created ->
  exists done',
    closed (env (step st c)) = done' ++ base_closed
    /\ created (env (step st c)) = held (step st c) ++ done' ++ base_created.
Proof.
  unfold held. intros Hcl Hcr. destruct c; simpl.
  - destruct (async_session (self st)) as [s|] eqn:E.
    + rewrite (async_start_open _ _ E). simpl. rewrite E. exists done. auto.
    + destruct (factory_cases (factory_calls (env st))) as [F|[e F]].
      * rewrite (async_start_closed_ok _ E F). simpl. exists done.
        rewrite Hcr. auto.
      * rewrite (async_start_closed_raise _ _ E F). simpl. rewrite E.
        exists done. auto.
  - destruct (state_cases st) as [E|[(s & E & D)|(s & E & D)]].
    + rewrite (async_close_closed _ E). simpl. rewrite E in *. exists done. auto.
    + rewrite (async_close_nested _ _ E D). simpl. rewrite E in *. exists done. auto.
    + rewrite (async_close_outermost _ _ E D). simpl. rewrite E in *.
      exists (s :: done). rewrite Hcl, Hcr. auto.
Qed.

(** X1.  Start from an instance that holds no session and make any
    calls.  The sessions closed during the run, followed by the one
    still held if there is one, are exactly the sessions created during
    the run, in the same order: each session is closed before the next
    is made, none is lost, and at most one is open. *)
Theorem run_accounts_for_every_session cs st0 :
  async_session (self st0) = None ->
  exists done,
    closed (env (run cs st0)) = done ++ closed (env st0)
    /\ created (env (run cs st0)) = held (run cs st0) ++ done ++ created (env st0).
Proof.
  intros E0. induction cs as [|c cs IH] using rev_ind.
  - exists []. unfold held. simpl. rewrite E0. auto.
  - destruct IH as (done & Hcl & Hcr). rewrite run_snoc.
    exact (step_accounting _ c done _ _ Hcl Hcr).
Qed.

Lemma step_sound st c :
  world_ok (env st) -> session_live st ->
  world_ok (env (step st c)) /\ session_live (step st c).
Proof.
  unfold world_ok, session_live. intros [Hnd Hlt] Hlive. destruct c; simpl.
  - destruct (async_session (self st)) as [s|] eqn:E.
    + rewrite (async_start_open _ _ E). simpl. rewrite E. auto.
    + destruct (factory_cases (factory_calls (env st))) as [F|[e F]].
      * rewrite (async_start_closed_ok _ E F). simpl. repeat split.
        -- assumption.
        -- intros s Hs. apply Hlt in Hs. lia.
        -- injection H as <-. lia.
        -- injection H as <-. intros Hin. apply Hlt in Hin. lia.
      * rewrite (async_start_closed_raise _ _ E F). simpl. rewrite E.
        repeat split; try assumption; try discriminate.
        intros s Hs. apply Hlt in Hs. lia.
  - destruct (state_cases st) as [E|[(s & E & D)|(s & E & D)]].
    + rewrite (async_close_closed _ E). simpl. rewrite E. 
      repeat split; try assumption; discriminate.
    + rewrite (async_close_nested _ _ E D). simpl. rewrite E.
      split; [split; assumption|]. intros s' Hs'. apply Hlive. congruence.
    + rewrite (async_close_outermost _ _ E D). simpl.
      destruct (Hlive s E) as [Hs Hnot]. repeat split; try discriminate.
      * constructor; assumption.
      * intros s' [<-|Hin]; [assumption | apply Hlt; assumption].
Qed.

Lemma run_sound cs : forall st,
  world_ok (env st) -> session_live st ->
  world_ok (env (run cs st)) /\ session_live (run cs st).
Proof.
  induction cs as [|c cs IH]; intros st Hw Hl.
  - simpl. auto.
  - rewrite run_cons. destruct (step_sound st c Hw Hl) as [Hw' Hl'].
    exact (IH _ Hw' Hl').
Qed.

Lemma closed_session_live st :
  async_session (self st) = None -> session_live st.
Proof. intros E s Hs. congruence. Qed.

(** X2.  In a world whose record of closed sessions has no session
    twice, an instance that starts without a session never closes a
    session twice, whatever calls are made: the record still has no
    session twice after the run. *)
Theorem run_never_closes_twice cs st0 :
  world_ok (env st0) ->
  async_session (self st0) = None ->
  NoDup (closed (env (run cs st0))).
Proof.
  intros Hw E0.
  destruct (run_sound cs st0 Hw (closed_session_live _ E0)) as [[Hnd _] _].
  exact Hnd.
Qed.

(** X3.  In such a world, a session that [async_start] hands out
    after any run of calls is not one that was closed: a caller never
    receives a closed session. *)
Theorem acquired_session_is_not_closed cs st0 s st' :
  world_ok (env st0) ->
  async_session (self st0) = None ->
  async_start (run cs st0) = (Return s, st') ->
  async_session (self st') = Some s /\ ~ In s (closed (env st')).
Proof.
  intros Hw E0 Hstart.
  destruct (run_sound (cs ++ [Acquire]) st0 Hw (closed_session_live _ E0))
    as [_ Hlive].
  rewrite run_snoc in Hlive. simpl in Hlive. rewrite Hstart in Hlive. simpl in Hlive.
  assert (Hheld : async_session (self st') = Some s).
  { destruct (async_session (self (run cs st0))) as [s0|] eqn:E.
    - rewrite (async_start_open _ _ E) in Hstart. inversion Hstart; subst.
      simpl. exact E.
    - destruct (factory_cases (factory_calls (env (run cs st0)))) as [F|[e F]].
      + rewrite (async_start_closed_ok _ E F) in Hstart. inversion Hstart; subst.
        reflexivity.
      + rewrite (async_start_closed_raise _ _ E F) in Hstart. discriminate. }
  split; [exact Hheld | exact (proj2 (Hlive s Hheld))].
Qed.

(** ** The depth as a count *)

(** X4.  On an instance that starts without a session and with depth
    zero, cut any run at the last moment no session was held.  If a
    session is held at the end, the depth is the number of acquires
    after the cut, less the releases after the cut, less one: it counts
    the holders beyond the first. *)
Theorem depth_counts_nested_holders cs st0 :
  async_session (self st0) = None ->
  recursion_depth (self st0) = 0 ->
  exists pre post,
    cs = pre ++ post
    /\ is_open (run pre st0) = false
    /\ (forall k, (0 < k <= List.length post)%nat ->
                  is_open (run (pre ++ firstn k post) st0) = true)
    /\ (is_open (run cs st0) = true ->
        recursion_depth (self (run cs st0))
        = Z.of_nat (acquires post) - Z.of_nat (releases post) - 1)
    /\ (is_open (run cs st0) = false ->
        post = [] /\ recursion_depth (self (run cs st0)) = 0).
Proof.
  intros E0 D0.
  destruct (run_balance st0 E0 D0 cs) as (pre & post & Hcs & Hpre & Hopen & Hset & Hbal).
  exists pre, post. repeat split; try assumption.
  - intros O. unfold holders in Hbal. rewrite O in Hbal. lia.
  - unfold holders in Hbal. rewrite H in Hbal.
    destruct post as [|c post]; [reflexivity|].
    specialize (Hopen (List.length (c :: post))).
    rewrite firstn_all, <- Hcs in Hopen. simpl in Hopen.
    rewrite Hopen in H by lia. discriminate.
  - unfold depth_settled in Hset. rewrite H in Hset. exact Hset.
Qed.

(** ** Well-nested use *)

Lemma depth_invariant_settled st : depth_invariant st -> depth_settled st.
Proof.
  intros (Hnn & _ & Hnone). unfold depth_settled, is_open.
  destruct (async_session (self st)); auto.
Qed.

Lemma tracks_start st0 : depth_invariant st0 -> tracks st0 0 st0.
Proof.
  intros Hinv. unfold tracks. repeat split.
  - exact (depth_invariant_settled _ Hinv).
  - destruct (async_session (self st0)) as [s|] eqn:E.
    + split; [reflexivity | simpl; lia].
    + unfold holders, is_open. rewrite E. simpl. lia.
Qed.

Lemma tracks_acquire st0 n st :
  tracks st0 n st -> tracks st0 (S n) (step st Acquire).
Proof.
  intros (H1 & H2 & H3 & Hset & Hm).
  destruct (step_keeps_setup st Acquire) as (S1 & S2 & S3).
  destruct (step_balance st Acquire Hset) as [Hset' Hhold].
  unfold tracks. repeat split; try congruence.
  destruct (async_session (self st0)) as [s0|].
  - destruct Hm as [E D]. simpl. rewrite (async_start_open _ _ E). simpl.
    split; [exact E | lia].
  - destruct (is_open (step st Acquire)) eqn:O.
    + rewrite (Hhold eq_refl). unfold weight. simpl. lia.
    + unfold holders. rewrite O. lia.
Qed.

Lemma tracks_release st0 n st :
  depth_invariant st0 ->
  tracks st0 (S n) st -> tracks st0 n (step st Release).
Proof.
  intros (Hnn & _ & _) (H1 & H2 & H3 & Hset & Hm).
  destruct (step_keeps_setup st Release) as (S1 & S2 & S3).
  destruct (step_balance st Release Hset) as [Hset' Hhold].
  unfold tracks. repeat split; try congruence.
  destruct (async_session (self st0)) as [s0|].
  - destruct Hm as [E D]. simpl.
    rewrite (async_close_nested _ _ E) by lia. simpl.
    split; [exact E | lia].
  - destruct (is_open (step st Release)) eqn:O.
    + rewrite (Hhold eq_refl). unfold weight. simpl. lia.
    + unfold holders. rewrite O. lia.
Qed.

Lemma nested_run st0 cs : forall n st,
  depth_invariant st0 ->
  tracks st0 n st ->
  nested n cs = true ->
  tracks st0 0 (run cs st).
Proof.
  induction cs as [|c cs IH]; intros n st Hinv Ht Hn.
  - simpl in *. apply Nat.eqb_eq in Hn. subst n. exact Ht.
  - rewrite run_cons. destruct c; simpl in Hn.
    + exact (IH _ _ Hinv (tracks_acquire _ _ _ Ht) Hn).
    + destruct n as [|m]; [discriminate|].
      exact (IH _ _ Hinv (tracks_release _ _ _ Hinv Ht) Hn).
Qed.

(** X5.  A run of calls that pair up like brackets, each release
    after its acquire, leaves the attributes of the instance exactly as
    it found them: the same session or none, the same depth.  This
    holds from every state that satisfies the depth invariant and for
    every behaviour of the backend, also when an acquire of the run
    raised. *)
Theorem well_nested_run_restores_instance cs st0 :
  depth_invariant st0 ->
  well_nested cs = true ->
  self (run cs st0) = self st0.
Proof.
  intros Hinv Hn.
  destruct (nested_run st0 cs 0%nat st0 Hinv (tracks_start _ Hinv) Hn)
    as (H1 & H2 & H3 & Hset & Hm).
  destruct Hinv as (Hnn & Hpos & Hnone).
  apply manager_eq; try assumption.
  - destruct (async_session (self st0)) as [s0|] eqn:E.
    + exact (proj1 Hm).
    + unfold holders, depth_settled, is_open in *.
      destruct (async_session (self (run cs st0))); [simpl in *; lia | reflexivity].
  - destruct (async_session (self st0)) as [s0|] eqn:E.
    + destruct Hm as [_ D]. simpl in D. lia.
    + unfold holders, depth_settled, is_open in *.
      destruct (async_session (self (run cs st0))); [simpl in *; lia|].
      rewrite Hset. symmetry. apply Hnone. reflexivity.
Qed.

(** ** Scoped use, continued *)

Lemma enter_then_exit_restores st1 st2 st :
  depth_invariant st ->
  snd (async_start st) = st1 ->
  self st2 = self st1 ->
  self (async_close st2) = self st.
Proof.
  intros (Hnn & Hpos & Hnone) H1 H2.
  destruct (async_session (self st)) as [s|] eqn:E.
  - rewrite (async_start_open _ _ E) in H1. simpl in H1. subst st1.
    assert (E2 : async_session (self st2) = Some s) by (rewrite H2; exact E).
    rewrite (async_close_nested _ _ E2) by (rewrite H2; simpl; lia).
    simpl. rewrite H2. apply manager_eq; simpl; auto. lia.
  - destruct (factory_cases (factory_calls (env st))) as [F|[e F]].
    + rewrite (async_start_closed_ok _ E F) in H1. simpl in H1. subst st1.
      assert (E2 : async_session (self st2) = Some (factory_calls (env st)))
        by (rewrite H2; reflexivity).
      rewrite (async_close_outermost _ _ E2)
        by (rewrite H2; simpl; rewrite (Hnone eq_refl); lia).
      simpl. rewrite H2. apply manager_eq; simpl; auto.
    + rewrite (async_start_closed_raise _ _ E F) in H1. simpl in H1. subst st1.
      assert (E2 : async_session (self st2) = None) by (rewrite H2; exact E).
      rewrite (async_close_closed _ E2). simpl. exact H2.
Qed.

(** X6.  [async with] on an instance that satisfies the depth
    invariant, around a block that leaves the attributes of the
    instance as it found them whenever it starts from such a state:
    after the statement the attributes are what they were before it,
    whether the block returned or raised and whether or not a session
    could be opened.  The statement is therefore such a block itself,
    and scopes nest to any depth. *)
Theorem async_with_restores_instance body st :
  depth_invariant st ->
  (forall s st1, depth_invariant st1 -> self (snd (body s st1)) = self st1) ->
  self (snd (async_with body st)) = self st.
Proof.
  intros Hinv Hbody. unfold async_with, __aenter__, __aexit__.
  pose proof (async_start_depth_invariant st Hinv) as Hinv1.
  destruct (async_start st) as [[s|e] st1] eqn:Hstart.
  - simpl in Hinv1. specialize (Hbody s st1 Hinv1).
    destruct (body s st1) as [r st2]. simpl in Hbody.
    assert (H : self (async_close st2) = self st).
    { apply (enter_then_exit_restores st1 st2 st Hinv); [rewrite Hstart|]; auto. }
    destruct r as [[]|e]; simpl; exact H.
  - simpl. destruct (async_session (self st)) as [s|] eqn:E.
    + rewrite (async_start_open _ _ E) in Hstart. discriminate.
    + destruct (factory_cases (factory_calls (env st))) as [F|[e' F]].
      * rewrite (async_start_closed_ok _ E F) in Hstart. discriminate.
      * rewrite (async_start_closed_raise _ _ E F) in Hstart.
        inversion Hstart. reflexivity.
Qed.

(** X7.  When the session cannot be opened, [async with] raises the
    error of the factory whatever the block is: the block does not
    run, [async_close] is not called, so no warning is logged, and no
    session is stored, created or closed. *)
Theorem async_with_skips_block_when_enter_raises body st e :
  async_session (self st) = None ->
  factory_raises (factory_calls (env st)) = Some e ->
  async_with body st =
    (Raise e,
     mkState (self st)
             (mkWorld (S (factory_calls (env st))) (created (env st))
                      (closed (env st)) (listeners (env st)) (log (env st)))).
Proof.
  intros E F. unfold async_with, __aenter__.
  rewrite (async_start_closed_raise _ _ E F). reflexivity.
Qed.

(** ** After a failure *)

(** X8.  A failed [async_start] can be tried again: when the factory
    raises on one call and returns on the next, the second
    [async_start] stores and returns the session of that next call,
    with the depth untouched and that session as the only one
    created. *)
Theorem acquire_can_be_retried st e :
  async_session (self st) = None ->
  factory_raises (factory_calls (env st)) = Some e ->
  factory_raises (S (factory_calls (env st))) = None ->
  let st1 := snd (async_start st) in
  fst (async_start st) = Raise e
  /\ exists st2,
       async_start st1 = (Return (S (factory_calls (env st))), st2)
       /\ async_session (self st2) = Some (S (factory_calls (env st)))
       /\ recursion_depth (self st2) = recursion_depth (self st)
       /\ created (env st2) = S (factory_calls (env st)) :: created (env st)
       /\ closed (env st2) = closed (env st)
       /\ log (env st2) = log (env st).
Proof.
  intros E F1 F2. cbv zeta. rewrite (async_start_closed_raise _ _ E F1). simpl.
  split; [reflexivity|].
  match goal with |- context [async_start ?x] => set (st1 := x) end.
  assert (E1 : async_session (self st1) = None) by exact E.
  assert (F : factory_raises (factory_calls (env st1)) = None) by exact F2.
  rewrite (async_start_closed_ok _ E1 F). eexists. split; [reflexivity|].
  simpl. repeat split.
Qed.

(** ** Warnings *)

Lemma run_acquires_open_log n : forall st s,
  async_session (self st) = Some s ->
  log (env (run (repeat Acquire n) st))
  = reentry_warnings (recursion_depth (self st)) n ++ log (env st).
Proof.
  induction n as [|n IH]; intros st s E.
  - reflexivity.
  - rewrite repeat_snoc, run_snoc.
    destruct (run_acquires_open n st s E) as (E' & D' & _).
    simpl step. rewrite (async_start_open _ _ E'). cbn [snd env log logger_warning emit].
    rewrite (IH st s E), D'. cbn [reentry_warnings app].
    replace (recursion_depth (self st) + Z.of_nat n + 1)
      with (recursion_depth (self st) + Z.of_nat (S n)) by lia.
    reflexivity.
Qed.

(** X9.  [N + 1] acquires in a row on an instance without a session,
    when the factory call returns: the first logs nothing and each of
    the [N] others logs one warning with call-site information,
    reporting the depths 1 to [N] in turn. *)
Theorem nested_acquires_warn_with_depth N st :
  async_session (self st) = None ->
  recursion_depth (self st) = 0 ->
  factory_raises (factory_calls (env st)) = None ->
  log (env (run (repeat Acquire (S N)) st)) = reentry_warnings 0 N ++ log (env st).
Proof.
  intros E D F.
  change (run (repeat Acquire (S N)) st) with (run (repeat Acquire N) (step st Acquire)).
  unfold step. rewrite (async_start_closed_ok _ E F). simpl snd.
  erewrite run_acquires_open_log by reflexivity. simpl. rewrite D. reflexivity.
Qed.

(** ** The hook over the life of the instance *)

(** X10.  The connect hook of an instance answers by the URL the
    constructor was given, at any later time: after any calls on the
    instance, the hook executes [pragma foreign_keys=on] on a new
    connection iff that URL begins with [sqlite], and the constructor
    has registered the hook for the [connect] event of the engine it
    built for that URL. *)
Theorem hook_follows_constructor_url cfg w m w' cs conn wc :
  __init__ cfg w = (Return m, w') ->
  let st := run cs (mkState m w') in
  engine_url (async_engine (self st)) = url cfg
  /\ In (mkListener (async_engine (self st)) "connect" cfg) (listeners (env st))
  /\ (fst (_on_connect (self st) conn wc) = execute "pragma foreign_keys=on" conn
      <-> exists rest, url cfg = ("sqlite" ++ rest)%string)
  /\ (fst (_on_connect (self st) conn wc) = conn
      <-> ~ exists rest, url cfg = ("sqlite" ++ rest)%string).
Proof.
  intros Hinit. cbv zeta.
  destruct (run_frame cs (mkState m w')) as (Hc & He & _ & Hl & _).
  simpl in Hc, He, Hl. rewrite He, Hl.
  pose proof (init_registers_connect_hook _ _ _ _ Hinit) as Hreg.
  destruct (init_starts_closed _ _ _ _ Hinit) as (_ & _ & Hcfg).
  assert (Hurl : engine_url (async_engine m) = url cfg).
  { unfold __init__, create_async_engine in Hinit.
    destruct (engine_rejects (url cfg)); inversion Hinit. reflexivity. }
  split; [exact Hurl|]. split; [rewrite Hreg, Hcfg; left; reflexivity|].
  unfold _on_connect, execute. rewrite Hc, Hcfg.
  destruct (prefix "sqlite" (url cfg)) eqn:P; simpl.
  - apply prefix_true_iff in P. split; split; intros H.
    + exact P.
    + reflexivity.
    + exfalso. exact (cons_neq_self _ _ H).
    + contradiction.
  - assert (N : ~ exists rest, url cfg = ("sqlite" ++ rest)%string).
    { intros H. apply prefix_true_iff in H. congruence. }
    split; split; intros H.
    + exfalso. exact (cons_neq_self _ _ (eq_sym H)).
    + contradiction.
    + exact N.
    + reflexivity.
Qed.

End Backend.

(** ** The scenarios of the specification, run on a sqlite instance *)

Example construct_sqlite :
  __init__ accepts_all sqlite_config empty_world = (Return fresh_manager, env fresh_state).
Proof. reflexivity. Qed.

Example nested_use_closes_once :
  let st := run never_raises [Acquire; Acquire; Release; Release] fresh_state in
  async_session (self st) = None
  /\ recursion_depth (self st) = 0
  /\ created (env st) = [0%nat]
  /\ closed (env st) = [0%nat].
Proof. repeat split. Qed.

Example nested_use_still_open_after_first_release :
  let st := run never_raises [Acquire; Acquire; Release] fresh_state in
  async_session (self st) = Some 0%nat
  /\ recursion_depth (self st) = 0
  /\ closed (env st) = [].
Proof. repeat split. Qed.

Example second_acquire_same_session :
  fst (async_start never_raises fresh_state) = Return 0%nat
  /\ fst (async_start never_raises (snd (async_start never_raises fresh_state)))
     = Return 0%nat.
Proof. split; reflexivity. Qed.

Example release_without_acquire :
  async_close fresh_state
  = mkState fresh_manager
            (mkWorld 0 [] [] (listeners (env fresh_state)) [never_opened_warning]).
Proof. reflexivity. Qed.

Example reopen_makes_new_session :
  fst (async_start never_raises
         (run never_raises [Acquire; Release] fresh_state)) = Return 1%nat.
Proof. reflexivity. Qed.

Example connect_sqlite :
  fst (_on_connect fresh_manager [] empty_world) = ["pragma foreign_keys=on"].
Proof. reflexivity. Qed.

Example connect_postgres :
  fst (_on_connect (mkSessionManager postgres_config sqlite_engine
                                     (mkSessionMaker sqlite_engine false) None 0)
                   [] empty_world) = [].
Proof. reflexivity. Qed.

Example with_block_that_raises :
  async_with never_raises raising_body fresh_state
  = (Raise (Exn "ValueError"),
     mkState fresh_manager
             (mkWorld 1 [0%nat] [0%nat] (listeners (env fresh_state)) [])).
Proof. reflexivity. Qed.

Example with_block_that_returns :
  async_with never_raises passing_body fresh_state
  = (Return tt,
     mkState fresh_manager
             (mkWorld 1 [0%nat] [0%nat] (listeners (env fresh_state)) [])).
Proof. reflexivity. Qed.

Example with_when_factory_raises :
  async_with first_call_raises passing_body fresh_state
  = (Raise (Exn "OperationalError"),
     mkState fresh_manager
             (mkWorld 1 [] [] (listeners (env fresh_state)) [])).
Proof. reflexivity. Qed.

Example count_after_nested_use :
  trace never_raises fresh_state [Acquire; Acquire; Release]
  = [Acquired; Acquired; Released]
  /\ pending (trace never_raises fresh_state [Acquire; Acquire; Release]) = 1%nat.
Proof. split; reflexivity. Qed.

Example count_ignores_failed_acquire_and_spare_release :
  trace first_call_raises fresh_state [Release; Acquire; Acquire]
  = [Released; AcquireRaised; Acquired]
  /\ pending (trace first_call_raises fresh_state [Release; Acquire; Acquire]) = 1%nat
  /\ is_open (run first_call_raises [Release; Acquire; Acquire] fresh_state) = true.
Proof. repeat split. Qed.

(** ** The theorems at concrete inputs *)

Lemma open_iff_acquires_exceed_releases_witness :
  let cs := [Acquire; Acquire; Release] in
  __init__ accepts_all sqlite_config empty_world = (Return fresh_manager, env fresh_state)
  /\ (is_open (run never_raises cs fresh_state) = true
      <-> (0 < pending (trace never_raises fresh_state cs))%nat)
  /\ exists pre post,
       cs = pre ++ post
       /\ is_open (run never_raises pre fresh_state) = false
       /\ pending (trace never_raises fresh_state pre) = 0%nat
       /\ (forall k, (0 < k <= List.length post)%nat ->
             is_open (run never_raises (pre ++ firstn k post) fresh_state) = true
             /\ (0 < pending (trace never_raises fresh_state
                                    (pre ++ firstn k post)))%nat)
       /\ (pending (trace never_raises fresh_state cs) + releases post
           = acquires post)%nat
       /\ (is_open (run never_raises cs fresh_state) = true
           <-> (releases post < acquires post)%nat).
Proof.
  cbv zeta. split; [reflexivity|].
  exact (open_iff_acquires_exceed_releases accepts_all never_raises
           sqlite_config empty_world fresh_manager (env fresh_state)
           [Acquire; Acquire; Release] eq_refl).
Defined.

Lemma reachable_depth_invariant_witness :
  reachable accepts_all never_raises (snd (async_start never_raises fresh_state))
  /\ depth_invariant (snd (async_start never_raises fresh_state)).
Proof.
  assert (R : reachable accepts_all never_raises
                (snd (async_start never_raises fresh_state))).
  { apply reach_start.
    apply (reach_init accepts_all never_raises sqlite_config empty_world).
    reflexivity. }
  split; [exact R|].
  exact (reachable_depth_invariant accepts_all never_raises _ R).
Defined.

Lemma acquire_creates_once_then_reuses_witness :
  async_session (self fresh_state) = None
  /\ never_raises (factory_calls (env fresh_state)) = None
  /\ exists s st1,
       async_start never_raises fresh_state = (Return s, st1)
       /\ factory_calls (env st1) = S (factory_calls (env fresh_state))
       /\ created (env st1) = s :: created (env fresh_state)
       /\ async_session (self st1) = Some s
       /\ recursion_depth (self st1) = recursion_depth (self fresh_state)
       /\ forall cs,
            (forall k, is_open (run never_raises (firstn k cs) st1) = true) ->
            exists st2,
              async_start never_raises (run never_raises cs st1) = (Return s, st2)
              /\ async_session (self st2) = Some s
              /\ recursion_depth (self st2)
                 = recursion_depth (self (run never_raises cs st1)) + 1
              /\ factory_calls (env st2) = factory_calls (env st1)
              /\ created (env st2) = created (env st1).
Proof.
  split; [reflexivity|]. split; [reflexivity|].
  apply (acquire_creates_once_then_reuses never_raises fresh_state); reflexivity.
Defined.

Lemma nth_release_closes_witness :
  (1 <= 2)%nat
  /\ async_session (self fresh_state) = None
  /\ recursion_depth (self fresh_state) = 0
  /\ never_raises (factory_calls (env fresh_state)) = None
  /\ closed (env (run never_raises (repeat Release 1)
                    (run never_raises (repeat Acquire 2) fresh_state))) = []
  /\ closed (env (run never_raises (repeat Release 2)
                    (run never_raises (repeat Acquire 2) fresh_state))) = [0%nat]
  /\ closed (env (run never_raises (repeat Release 5)
                    (run never_raises (repeat Acquire 2) fresh_state))) = [0%nat].
Proof.
  assert (H1 : (1 <= 2)%nat) by (apply le_S, le_n).
  destruct (nth_release_closes never_raises 2 fresh_state H1 eq_refl eq_refl eq_refl)
    as [Hbelow Hfrom].
  assert (H5 : (2 <= 5)%nat) by (repeat constructor).
  split; [exact H1|]. split; [reflexivity|]. split; [reflexivity|].
  split; [reflexivity|].
  split; [exact (proj2 (proj2 (proj2 (Hbelow 1%nat (le_n 2)))))|].
  split; [exact (proj2 (proj2 (proj2 (Hfrom 2%nat (le_n 2)))))|].
  exact (proj2 (proj2 (proj2 (Hfrom 5%nat H5)))).
Defined.

Lemma release_when_closed_only_warns_witness :
  async_session (self fresh_state) = None
  /\ run never_raises (repeat Release 3) fresh_state
     = mkState fresh_manager
               (mkWorld 0 [] [] (listeners (env fresh_state))
                        [never_opened_warning; never_opened_warning;
                         never_opened_warning]).
Proof.
  split; [reflexivity|].
  exact (release_when_closed_only_warns never_raises 3 fresh_state eq_refl).
Defined.



Lemma failed_acquire_leaves_scope_closed_witness :
  async_session (self fresh_state) = None
  /\ first_call_raises (factory_calls (env fresh_state)) = Some (Exn "OperationalError")
  /\ exists st',
       async_start first_call_raises fresh_state = (Raise (Exn "OperationalError"), st')
       /\ self st' = self fresh_state
       /\ async_session (self st') = None
       /\ recursion_depth (self st') = recursion_depth (self fresh_state)
       /\ created (env st') = created (env fresh_state)
       /\ closed (env st') = closed (env fresh_state)
       /\ log (env st') = log (env fresh_state).
Proof.
  split; [reflexivity|]. split; [reflexivity|].
  exact (failed_acquire_leaves_scope_closed first_call_raises fresh_state
           (Exn "OperationalError") eq_refl eq_refl).
Defined.

Lemma async_with_releases_once_witness :
  let st1 := snd (async_start never_raises fresh_state) in
  async_start never_raises fresh_state = (Return 0%nat, st1)
  /\ raising_body 0%nat st1 = (Raise (Exn "ValueError"), st1)
  /\ __aenter__ never_raises fresh_state = (Return 0%nat, st1)
  /\ (forall exc, __aexit__ exc st1 = (false, async_close st1))
  /\ async_with never_raises raising_body fresh_state
     = (Raise (Exn "ValueError"), async_close st1).
Proof.
  cbv zeta. split; [reflexivity|]. split; [reflexivity|].
  exact (async_with_releases_once never_raises raising_body fresh_state 0%nat
           (snd (async_start never_raises fresh_state))
           (Raise (Exn "ValueError"))
           (snd (async_start never_raises fresh_state))
           eq_refl eq_refl).
Defined.

(** ** The further theorems at concrete inputs *)

Lemma fresh_world_ok : world_ok (env fresh_state).
Proof. split; [constructor | intros s []]. Defined.

Lemma fresh_depth_invariant : depth_invariant fresh_state.
Proof.
  exact (init_depth_invariant accepts_all sqlite_config empty_world
           fresh_manager (env fresh_state) eq_refl).
Defined.

Lemma run_accounts_for_every_session_witness :
  async_session (self fresh_state) = None
  /\ exists done,
       closed (env (run never_raises [Acquire; Release; Acquire] fresh_state))
       = done ++ closed (env fresh_state)
       /\ created (env (run never_raises [Acquire; Release; Acquire] fresh_state))
          = held (run never_raises [Acquire; Release; Acquire] fresh_state)
            ++ done ++ created (env fresh_state).
Proof.
  split; [reflexivity|].
  exact (run_accounts_for_every_session never_raises
           [Acquire; Release; Acquire] fresh_state eq_refl).
Defined.

Lemma run_never_closes_twice_witness :
  world_ok (env fresh_state)
  /\ async_session (self fresh_state) = None
  /\ NoDup (closed (env (run never_raises
                           [Acquire; Release; Release; Acquire; Release]
                           fresh_state))).
Proof.
  split; [exact fresh_world_ok|]. split; [reflexivity|].
  exact (run_never_closes_twice never_raises
           [Acquire; Release; Release; Acquire; Release] fresh_state
           fresh_world_ok eq_refl).
Defined.

Lemma acquired_session_is_not_closed_witness :
  let st := run never_raises [Acquire; Release] fresh_state in
  world_ok (env fresh_state)
  /\ async_session (self fresh_state) = None
  /\ async_start never_raises st = (Return 1%nat, snd (async_start never_raises st))
  /\ async_session (self (snd (async_start never_raises st))) = Some 1%nat
  /\ ~ In 1%nat (closed (env (snd (async_start never_raises st)))).
Proof.
  cbv zeta. split; [exact fresh_world_ok|]. split; [reflexivity|].
  split; [reflexivity|].
  exact (acquired_session_is_not_closed never_raises [Acquire; Release] fresh_state
           1%nat _ fresh_world_ok eq_refl eq_refl).
Defined.

Lemma depth_counts_nested_holders_witness :
  let cs := [Acquire; Acquire; Acquire; Release] in
  async_session (self fresh_state) = None
  /\ recursion_depth (self fresh_state) = 0
  /\ exists pre post,
       cs = pre ++ post
       /\ is_open (run never_raises pre fresh_state) = false
       /\ (forall k, (0 < k <= List.length post)%nat ->
             is_open (run never_raises (pre ++ firstn k post) fresh_state) = true)
       /\ (is_open (run never_raises cs fresh_state) = true ->
           recursion_depth (self (run never_raises cs fresh_state))
           = Z.of_nat (acquires post) - Z.of_nat (releases post) - 1)
       /\ (is_open (run never_raises cs fresh_state) = false ->
           post = [] /\ recursion_depth (self (run never_raises cs fresh_state)) = 0).
Proof.
  cbv zeta. split; [reflexivity|]. split; [reflexivity|].
  exact (depth_counts_nested_holders never_raises
           [Acquire; Acquire; Acquire; Release] fresh_state eq_refl eq_refl).
Defined.

Lemma well_nested_run_restores_instance_witness :
  let cs := [Acquire; Acquire; Release; Acquire; Release; Release] in
  depth_invariant fresh_state
  /\ well_nested cs = true
  /\ self (run first_call_raises cs fresh_state) = self fresh_state.
Proof.
  cbv zeta. split; [exact fresh_depth_invariant|]. split; [reflexivity|].
  exact (well_nested_run_restores_instance first_call_raises
           [Acquire; Acquire; Release; Acquire; Release; Release] fresh_state
           fresh_depth_invariant eq_refl).
Defined.

Lemma async_with_restores_instance_witness :
  depth_invariant fresh_state
  /\ (forall s st1, depth_invariant st1 ->
        self (snd (nested_block never_raises s st1)) = self st1)
  /\ self (snd (async_with never_raises (nested_block never_raises) fresh_state))
     = self fresh_state.
Proof.
  assert (Hblock : forall (s : Session) st1, depth_invariant st1 ->
            self (snd (nested_block never_raises s st1)) = self st1).
  { intros s st1 Hinv. unfold nested_block.
    apply (async_with_restores_instance never_raises passing_body st1 Hinv).
    intros s' st2 _. reflexivity. }
  split; [exact fresh_depth_invariant|]. split; [exact Hblock|].
  exact (async_with_restores_instance never_raises (nested_block never_raises)
           fresh_state fresh_depth_invariant Hblock).
Defined.

Lemma async_with_skips_block_when_enter_raises_witness :
  async_session (self fresh_state) = None
  /\ first_call_raises (factory_calls (env fresh_state)) = Some (Exn "OperationalError")
  /\ async_with first_call_raises passing_body fresh_state
     = (Raise (Exn "OperationalError"),
        mkState fresh_manager
                (mkWorld 1 [] [] (listeners (env fresh_state)) [])).
Proof.
  split; [reflexivity|]. split; [reflexivity|].
  exact (async_with_skips_block_when_enter_raises first_call_raises passing_body
           fresh_state (Exn "OperationalError") eq_refl eq_refl).
Defined.

Lemma acquire_can_be_retried_witness :
  async_session (self fresh_state) = None
  /\ first_call_raises (factory_calls (env fresh_state)) = Some (Exn "OperationalError")
  /\ first_call_raises (S (factory_calls (env fresh_state))) = None
  /\ fst (async_start first_call_raises fresh_state) = Raise (Exn "OperationalError")
  /\ exists st2,
       async_start first_call_raises (snd (async_start first_call_raises fresh_state))
       = (Return 1%nat, st2)
       /\ async_session (self st2) = Some 1%nat
       /\ recursion_depth (self st2) = 0
       /\ created (env st2) = [1%nat]
       /\ closed (env st2) = []
       /\ log (env st2) = [].
Proof.
  split; [reflexivity|]. split; [reflexivity|]. split; [reflexivity|].
  exact (acquire_can_be_retried first_call_raises fresh_state
           (Exn "OperationalError") eq_refl eq_refl eq_refl).
Defined.

Lemma nested_acquires_warn_with_depth_witness :
  async_session (self fresh_state) = None
  /\ recursion_depth (self fresh_state) = 0
  /\ never_raises (factory_calls (env fresh_state)) = None
  /\ log (env (run never_raises (repeat Acquire 3) fresh_state))
     = [mkLogRecord WARNING (ReEntering 2) true;
        mkLogRecord WARNING (ReEntering 1) true].
Proof.
  split; [reflexivity|]. split; [reflexivity|]. split; [reflexivity|].
  exact (nested_acquires_warn_with_depth never_raises 2 fresh_state
           eq_refl eq_refl eq_refl).
Defined.

Lemma hook_follows_constructor_url_witness :
  let st := run never_raises [Acquire; Acquire; Release] fresh_state in
  __init__ accepts_all sqlite_config empty_world = (Return fresh_manager, env fresh_state)
  /\ engine_url (async_engine (self st)) = url sqlite_config
  /\ In (mkListener (async_engine (self st)) "connect" sqlite_config)
        (listeners (env st))
  /\ (fst (_on_connect (self st) [] empty_world)
      = execute "pragma foreign_keys=on" []
      <-> exists rest, url sqlite_config = ("sqlite" ++ rest)%string)
  /\ (fst (_on_connect (self st) [] empty_world) = []
      <-> ~ exists rest, url sqlite_config = ("sqlite" ++ rest)%string).
Proof.
  cbv zeta. split; [reflexivity|].
  exact (hook_follows_constructor_url accepts_all never_raises sqlite_config
           empty_world fresh_manager (env fresh_state)
           [Acquire; Acquire; Release] [] empty_world eq_refl).
Defined.
